(* Shallow embedding of the WholeMemory C API (cpp/include/wholememory/wholememory.h):
   error codes, the WHOLEMEMORY_RETURN_ON_FAIL macro, the partition planner,
   the handle queries and the entry-strided file loader. *)

From Stdlib Require Import ZArith List Lia String Bool.
Import ListNotations.
Open Scope Z_scope.

(* ------------------------------------------------------------------------- *)
(** * Enumerations of wholememory.h *)

(** [enum wholememory_error_code_t], lines 32-43. *)
Inductive wholememory_error_code_t : Type :=
| WHOLEMEMORY_SUCCESS
| WHOLEMEMORY_UNKNOW_ERROR
| WHOLEMEMORY_NOT_IMPLEMENTED
| WHOLEMEMORY_LOGIC_ERROR
| WHOLEMEMORY_CUDA_ERROR
| WHOLEMEMORY_COMMUNICATION_ERROR
| WHOLEMEMORY_INVALID_INPUT
| WHOLEMEMORY_INVALID_VALUE
| WHOLEMEMORY_OUT_OF_MEMORY
| WHOLEMEMORY_NOT_SUPPORTED.

(** The integer value of each enumerator: [SUCCESS = 0], then implicit
    successors as C assigns them. *)
Definition error_code_to_int (e : wholememory_error_code_t) : Z :=
  match e with
  | WHOLEMEMORY_SUCCESS => 0
  | WHOLEMEMORY_UNKNOW_ERROR => 1
  | WHOLEMEMORY_NOT_IMPLEMENTED => 2
  | WHOLEMEMORY_LOGIC_ERROR => 3
  | WHOLEMEMORY_CUDA_ERROR => 4
  | WHOLEMEMORY_COMMUNICATION_ERROR => 5
  | WHOLEMEMORY_INVALID_INPUT => 6
  | WHOLEMEMORY_INVALID_VALUE => 7
  | WHOLEMEMORY_OUT_OF_MEMORY => 8
  | WHOLEMEMORY_NOT_SUPPORTED => 9
  end.

Definition all_error_codes : list wholememory_error_code_t :=
  [WHOLEMEMORY_SUCCESS; WHOLEMEMORY_UNKNOW_ERROR; WHOLEMEMORY_NOT_IMPLEMENTED;
   WHOLEMEMORY_LOGIC_ERROR; WHOLEMEMORY_CUDA_ERROR; WHOLEMEMORY_COMMUNICATION_ERROR;
   WHOLEMEMORY_INVALID_INPUT; WHOLEMEMORY_INVALID_VALUE; WHOLEMEMORY_OUT_OF_MEMORY;
   WHOLEMEMORY_NOT_SUPPORTED].

Definition error_code_eqb (a b : wholememory_error_code_t) : bool :=
  Z.eqb (error_code_to_int a) (error_code_to_int b).

(** [enum wholememory_memory_type_t], lines 60-65. *)
Inductive wholememory_memory_type_t : Type :=
| WHOLEMEMORY_MT_NONE
| WHOLEMEMORY_MT_CONTINUOUS
| WHOLEMEMORY_MT_CHUNKED
| WHOLEMEMORY_MT_DISTRIBUTED.

(** [enum wholememory_memory_location_t], lines 72-76. *)
Inductive wholememory_memory_location_t : Type :=
| WHOLEMEMORY_ML_NONE
| WHOLEMEMORY_ML_DEVICE
| WHOLEMEMORY_ML_HOST.

(** The C return types of the functions wholememory.h declares. *)
Inductive c_return_type : Type :=
| RT_error_code            (* wholememory_error_code_t *)
| RT_bool                  (* bool *)
| RT_int                   (* int *)
| RT_size_t                (* size_t *)
| RT_memory_type           (* wholememory_memory_type_t *)
| RT_memory_location       (* wholememory_memory_location_t *)
| RT_distributed_backend.  (* wholememory_distributed_backend_t *)

Definition c_return_type_eqb (a b : c_return_type) : bool :=
  match a, b with
  | RT_error_code, RT_error_code | RT_bool, RT_bool | RT_int, RT_int
  | RT_size_t, RT_size_t | RT_memory_type, RT_memory_type
  | RT_memory_location, RT_memory_location
  | RT_distributed_backend, RT_distributed_backend => true
  | _, _ => false
  end.

(** The public functions of wholememory.h with their declared return types,
    in declaration order (lines 88-380; the last one is declared under
    [WITH_NVSHMEM_SUPPORT]). *)
Definition public_api : list (string * c_return_type) :=
  [("wholememory_init", RT_error_code);
   ("wholememory_finalize", RT_error_code);
   ("wholememory_create_unique_id", RT_error_code);
   ("wholememory_create_communicator", RT_error_code);
   ("wholememory_destroy_communicator", RT_error_code);
   ("wholememory_communicator_support_type_location", RT_error_code);
   ("wholememory_communicator_get_rank", RT_error_code);
   ("wholememory_communicator_get_size", RT_error_code);
   ("wholememory_communicator_is_bind_to_nvshmem", RT_bool);
   ("wholememory_communicator_set_distributed_backend", RT_error_code);
   ("wholememory_communicator_get_distributed_backend", RT_distributed_backend);
   ("wholememory_communicator_barrier", RT_error_code);
   ("wholememory_malloc", RT_error_code);
   ("wholememory_free", RT_error_code);
   ("wholememory_get_communicator", RT_error_code);
   ("wholememory_get_memory_type", RT_memory_type);
   ("wholememory_get_memory_location", RT_memory_location);
   ("wholememory_get_distributed_backend", RT_distributed_backend);
   ("wholememory_get_total_size", RT_size_t);
   ("wholememory_get_data_granularity", RT_size_t);
   ("wholememory_get_local_memory", RT_error_code);
   ("wholememory_get_rank_memory", RT_error_code);
   ("wholememory_get_global_pointer", RT_error_code);
   ("wholememory_get_global_reference", RT_error_code);
   ("wholememory_determine_partition_plan", RT_error_code);
   ("wholememory_determine_entry_partition_plan", RT_error_code);
   ("wholememory_get_partition_plan", RT_error_code);
   ("fork_get_device_count", RT_int);
   ("wholememory_load_from_file", RT_error_code);
   ("wholememory_store_to_file", RT_error_code);
   ("wholememory_is_build_with_nvshmem", RT_bool);
   ("wholememory_get_nvshmem_reference", RT_error_code)]%string.

(** The declared functions whose result is not a [wholememory_error_code_t]. *)
Definition non_error_code_functions : list (string * c_return_type) :=
  filter (fun p => negb (c_return_type_eqb (snd p) RT_error_code)) public_api.

(* ------------------------------------------------------------------------- *)
(** * WHOLEMEMORY_RETURN_ON_FAIL (lines 45-53)

    The body of a C function returning [wholememory_error_code_t] is a
    computation over a state that carries the program's own state and the
    text written to [stderr].  A statement either falls through with a new
    state or makes the enclosing function return. *)

Module ReturnOnFail.

Section Macro.

Variable S : Type.

Record cstate : Type := mk_cstate { prog : S; stderr : list string }.

Inductive outcome : Type :=
| FallThrough (st : cstate)
| Returned (e : wholememory_error_code_t) (st : cstate).

(** A statement (or the rest of a function body) run on a state. *)
Definition stmt := cstate -> outcome.

(** A call expression of type [wholememory_error_code_t]: run once on the
    state, it yields a code and a new state. *)
Definition expr := cstate -> wholememory_error_code_t * cstate.

(** [fprintf(stderr, "File %s line %d %s failed.\n", __FILE__, __LINE__, #X)] *)
Definition fail_message (file line text_of_X : string) : string :=
  ("File " ++ file ++ " line " ++ line ++ " " ++ text_of_X ++ " failed.")%string.

Definition fprintf_stderr (msg : string) (st : cstate) : cstate :=
  mk_cstate (prog st) (stderr st ++ [msg]).

(** [do { auto err = X; if (err != WHOLEMEMORY_SUCCESS) { ...; return err; } } while (0)] *)
Definition WHOLEMEMORY_RETURN_ON_FAIL (file line text_of_X : string)
  (X : expr) : stmt :=
  fun st =>
    let (err, st1) := X st in
    if negb (error_code_eqb err WHOLEMEMORY_SUCCESS) then
      Returned err (fprintf_stderr (fail_message file line text_of_X) st1)
    else FallThrough st1.

(** Sequencing [s1; s2] of statements. *)
Definition seq (s1 s2 : stmt) : stmt :=
  fun st => match s1 st with
            | FallThrough st1 => s2 st1
            | Returned e st1 => Returned e st1
            end.

(** [return WHOLEMEMORY_SUCCESS;] *)
Definition return_success : stmt := fun st => Returned WHOLEMEMORY_SUCCESS st.

(** A function body [RETURN_ON_FAIL(X1); ...; RETURN_ON_FAIL(Xn); return SUCCESS;]. *)
Fixpoint body_of_calls (calls : list expr) : stmt :=
  match calls with
  | [] => return_success
  | X :: rest => seq (WHOLEMEMORY_RETURN_ON_FAIL "f.cpp" "0" "X" X) (body_of_calls rest)
  end.

(** The code the caller sees: the first non-success code of the calls run in
    order, each on the state left by the previous one. *)
Fixpoint first_failure (calls : list expr) (st : cstate) : wholememory_error_code_t :=
  match calls with
  | [] => WHOLEMEMORY_SUCCESS
  | X :: rest =>
      let (err, st1) := X st in
      match err with
      | WHOLEMEMORY_SUCCESS => first_failure rest st1
      | _ => err
      end
  end.

Definition result_code (o : outcome) : option wholememory_error_code_t :=
  match o with Returned e _ => Some e | FallThrough _ => None end.

(** Calling a function whose body is [body]: the call expression yields the
    code the body returns and the state it leaves.  A body that falls off its
    end returns no code in C; [body_of_calls] never does. *)
Definition call_of (body : stmt) : expr :=
  fun st => match body st with
            | Returned e st1 => (e, st1)
            | FallThrough st1 => (WHOLEMEMORY_UNKNOW_ERROR, st1)
            end.

(** A call that writes nothing to stderr itself. *)
Definition keeps_stderr (X : expr) : Prop :=
  forall st, stderr (snd (X st)) = stderr st.

End Macro.

Arguments mk_cstate {S}.
Arguments prog {S}.
Arguments stderr {S}.
Arguments FallThrough {S}.
Arguments Returned {S}.
Arguments fprintf_stderr {S}.
Arguments WHOLEMEMORY_RETURN_ON_FAIL {S}.
Arguments seq {S}.
Arguments return_success {S}.
Arguments body_of_calls {S}.
Arguments first_failure {S}.
Arguments result_code {S}.
Arguments call_of {S}.
Arguments keeps_stderr {S}.

End ReturnOnFail.

(* ------------------------------------------------------------------------- *)
(** * PartitionPlanner

    [size_t] arguments are non-negative [Z]; [world_size] is a C [int].  No
    intermediate value of the planner exceeds [total_size], so no size_t
    wrap-around arises.  A C out-parameter is returned as an [option]: [None]
    when the function fails and leaves it unwritten. *)

Module Plan.

(** Modelled from the spec: the body of [wholememory_determine_entry_partition_plan]
    (declared at wholememory.h lines 325-327, implementation not in the
    repository sources).  Spec 4.1: the entry-count variant is the byte
    variant with entries in place of granularity units; it fails with
    InvalidValue when [world_size <= 0]; the returned value is the maximum
    per-rank count.  Ranks [0..rem-1] hold [base+1] entries and the others
    [base], so the maximum is [base+1] when [rem <> 0] and [base] when
    [rem = 0] (spec 8: 1024 bytes of granularity 256 on 4 ranks give 256 per
    rank). *)
Definition wholememory_determine_entry_partition_plan
  (total_entry_count : Z) (world_size : Z) : wholememory_error_code_t * option Z :=
  if world_size <=? 0 then (WHOLEMEMORY_INVALID_VALUE, None)
  else
    let base := total_entry_count / world_size in
    let rem := total_entry_count mod world_size in
    (WHOLEMEMORY_SUCCESS, Some (if rem =? 0 then base else base + 1)).

(** Modelled from the spec: the body of [wholememory_determine_partition_plan]
    (wholememory.h lines 312-315).  Spec 4.1: [G = total / granularity] must
    divide evenly; fails with InvalidValue when [granularity == 0],
    [world_size <= 0] or [total] is not divisible by [granularity];
    [size_per_rank] is the maximum per-rank size in bytes. *)
Definition wholememory_determine_partition_plan
  (total_size data_granularity : Z) (world_size : Z) : wholememory_error_code_t * option Z :=
  if (data_granularity =? 0) || (world_size <=? 0)
     || negb (total_size mod data_granularity =? 0)
  then (WHOLEMEMORY_INVALID_VALUE, None)
  else
    match wholememory_determine_entry_partition_plan (total_size / data_granularity) world_size with
    | (WHOLEMEMORY_SUCCESS, Some entry_per_rank) =>
        (WHOLEMEMORY_SUCCESS, Some (entry_per_rank * data_granularity))
    | (e, _) => (e, None)
    end.

(** Modelled from the spec: "actual per-rank sizes are derived by indexing
    into this scheme" (4.1): the number of units held by [rank]. *)
Definition rank_entry_count (total_entry_count world_size rank : Z) : Z :=
  let base := total_entry_count / world_size in
  let rem := total_entry_count mod world_size in
  if rank <? rem then base + 1 else base.

(** Units held by the ranks before [rank]: the rank's first unit. *)
Definition rank_entry_offset (total_entry_count world_size rank : Z) : Z :=
  let base := total_entry_count / world_size in
  let rem := total_entry_count mod world_size in
  rank * base + Z.min rank rem.

(** Per-rank partition size and offset in bytes. *)
Definition rank_partition_size (total_size data_granularity world_size rank : Z) : Z :=
  rank_entry_count (total_size / data_granularity) world_size rank * data_granularity.

Definition rank_partition_offset (total_size data_granularity world_size rank : Z) : Z :=
  rank_entry_offset (total_size / data_granularity) world_size rank * data_granularity.

(** Sum of [f r] over the ranks [0 <= r < n]. *)
Fixpoint sum_ranks (f : Z -> Z) (n : nat) : Z :=
  match n with
  | O => 0
  | S m => sum_ranks f m + f (Z.of_nat m)
  end.

(** Total of the per-rank partition sizes, each computed independently. *)
Definition plan_total (total_size data_granularity world_size : Z) : Z :=
  sum_ranks (rank_partition_size total_size data_granularity world_size) (Z.to_nat world_size).

(** The inputs the planner accepts. *)
Definition plan_accepts (total_size data_granularity world_size : Z) : Prop :=
  0 <= total_size /\ 0 < data_granularity /\ 1 <= world_size
  /\ total_size mod data_granularity = 0.

End Plan.

(* ------------------------------------------------------------------------- *)
(** * Communicator and DistributedMemoryHandle

    The opaque [wholememory_comm_t] and [wholememory_handle_t] are records of
    the attributes spec 3 gives them.  Pointers are addresses in [Z]. *)

Module Handle.
Import Plan.

(** Modelled from the spec: [struct wholememory_comm_] (opaque in
    wholememory.h line 101).  Spec 3: rank, world size and the capability
    table (memory type x location -> supported). *)
Record wholememory_comm := mk_comm {
  comm_rank : Z;
  comm_world_size : Z;
  comm_support : wholememory_memory_type_t -> wholememory_memory_location_t -> bool
}.

(** Modelled from the spec: [struct wholememory_handle_] (opaque in
    wholememory.h line 188).  Spec 3: total size, type, location,
    granularity, communicator, and the realized partition: the local shard,
    the per-rank base pointers for continuous and chunked memory, and the
    single global pointer where one exists. *)
Record wholememory_handle := mk_handle {
  h_comm : wholememory_comm;
  h_total_size : Z;
  h_memory_type : wholememory_memory_type_t;
  h_memory_location : wholememory_memory_location_t;
  h_data_granularity : Z;
  h_size_per_rank : Z;
  h_local_ptr : Z;
  h_rank_ptrs : list Z;
  h_global_ptr : Z
}.

Definition h_rank (h : wholememory_handle) : Z := comm_rank (h_comm h).
Definition h_world_size (h : wholememory_handle) : Z := comm_world_size (h_comm h).

(** The realized size and offset of [rank]'s partition (spec 4.1). *)
Definition h_rank_size (h : wholememory_handle) (rank : Z) : Z :=
  rank_partition_size (h_total_size h) (h_data_granularity h) (h_world_size h) rank.
Definition h_rank_offset (h : wholememory_handle) (rank : Z) : Z :=
  rank_partition_offset (h_total_size h) (h_data_granularity h) (h_world_size h) rank.

(** The ranks [0 .. world_size-1] as [Z]. *)
Definition ranks (world_size : Z) : list Z :=
  map Z.of_nat (List.seq 0 (Z.to_nat world_size)).

(** Modelled from the spec: the body of [wholememory_malloc]
    (wholememory.h lines 200-205).  Spec 4.3: the PartitionPlanner is invoked
    first (its error is propagated), unsupported (type, location) pairs fail
    with NotSupported per [support_type_location], a failed local allocation
    fails with OutOfMemory.  The collaborators are arguments: [alloc] is the
    accelerator allocator (for continuous memory it returns the base of the
    single range spanning the whole allocation, otherwise the base of the
    local shard), [gathered_ptrs] the per-rank shard bases every rank
    exchanges for chunked memory. *)
Definition wholememory_malloc (total_size : Z) (comm : wholememory_comm)
  (memory_type : wholememory_memory_type_t)
  (memory_location : wholememory_memory_location_t) (data_granularity : Z)
  (alloc : Z -> option Z) (gathered_ptrs : list Z)
  : wholememory_error_code_t * option wholememory_handle :=
  let ws := comm_world_size comm in
  let r := comm_rank comm in
  match wholememory_determine_partition_plan total_size data_granularity ws with
  | (WHOLEMEMORY_SUCCESS, Some size_per_rank) =>
      if negb (comm_support comm memory_type memory_location)
      then (WHOLEMEMORY_NOT_SUPPORTED, None)
      else
        let local_size := rank_partition_size total_size data_granularity ws r in
        let local_offset := rank_partition_offset total_size data_granularity ws r in
        match memory_type with
        | WHOLEMEMORY_MT_CONTINUOUS =>
            match alloc total_size with
            | None => (WHOLEMEMORY_OUT_OF_MEMORY, None)
            | Some base =>
                let ptrs := map (fun q => base + rank_partition_offset total_size
                                                 data_granularity ws q) (ranks ws) in
                (WHOLEMEMORY_SUCCESS,
                 Some (mk_handle comm total_size memory_type memory_location
                         data_granularity size_per_rank (base + local_offset) ptrs base))
            end
        | WHOLEMEMORY_MT_CHUNKED =>
            match alloc local_size with
            | None => (WHOLEMEMORY_OUT_OF_MEMORY, None)
            | Some p =>
                (WHOLEMEMORY_SUCCESS,
                 Some (mk_handle comm total_size memory_type memory_location
                         data_granularity size_per_rank p gathered_ptrs
                         (hd 0 gathered_ptrs)))
            end
        | _ =>
            match alloc local_size with
            | None => (WHOLEMEMORY_OUT_OF_MEMORY, None)
            | Some p =>
                (WHOLEMEMORY_SUCCESS,
                 Some (mk_handle comm total_size memory_type memory_location
                         data_granularity size_per_rank p [] 0))
            end
        end
  | (e, _) => (e, None)
  end.

(** A live handle: one [wholememory_malloc] returned, called with [size_t]
    (non-negative) sizes. *)
Definition live (h : wholememory_handle) : Prop :=
  exists total_size comm mt ml g alloc gathered,
    0 <= total_size /\ 0 <= g /\
    wholememory_malloc total_size comm mt ml g alloc gathered
    = (WHOLEMEMORY_SUCCESS, Some h).

(** Modelled from the spec: [wholememory_get_partition_plan]
    (wholememory.h lines 335-336): the size per rank the handle uses. *)
Definition wholememory_get_partition_plan (h : wholememory_handle)
  : wholememory_error_code_t * option Z :=
  (WHOLEMEMORY_SUCCESS, Some (h_size_per_rank h)).

(** Modelled from the spec: [wholememory_get_global_pointer]
    (wholememory.h lines 291-292), "fails with NotSupported unless type is
    continuous, or type is chunked and location is host" (4.3). *)
Definition wholememory_get_global_pointer (h : wholememory_handle)
  : wholememory_error_code_t * option Z :=
  match h_memory_type h, h_memory_location h with
  | WHOLEMEMORY_MT_CONTINUOUS, _ => (WHOLEMEMORY_SUCCESS, Some (h_global_ptr h))
  | WHOLEMEMORY_MT_CHUNKED, WHOLEMEMORY_ML_HOST => (WHOLEMEMORY_SUCCESS, Some (h_global_ptr h))
  | _, _ => (WHOLEMEMORY_NOT_SUPPORTED, None)
  end.

(** Modelled from the spec: [wholememory_gref_t] (spec 3, GlobalReference):
    one base pointer and a stride, or the per-rank base pointers with the
    size-per-rank table. *)
Inductive wholememory_gref_t :=
| GrefContinuous (base_ptr : Z) (stride : Z)
| GrefChunked (rank_ptrs : list Z) (rank_sizes : list Z).

(** Modelled from the spec: [wholememory_get_global_reference]
    (wholememory.h lines 301-302): "valid for continuous and chunked, fails
    with NotSupported for distributed" (4.3). *)
Definition wholememory_get_global_reference (h : wholememory_handle)
  : wholememory_error_code_t * option wholememory_gref_t :=
  match h_memory_type h with
  | WHOLEMEMORY_MT_CONTINUOUS =>
      (WHOLEMEMORY_SUCCESS, Some (GrefContinuous (h_global_ptr h) (h_size_per_rank h)))
  | WHOLEMEMORY_MT_CHUNKED =>
      (WHOLEMEMORY_SUCCESS,
       Some (GrefChunked (h_rank_ptrs h) (map (h_rank_size h) (ranks (h_world_size h)))))
  | _ => (WHOLEMEMORY_NOT_SUPPORTED, None)
  end.

(** The base pointer of [rank]'s partition as the handle records it. *)
Definition h_rank_ptr (h : wholememory_handle) (rank : Z) : Z :=
  if rank =? h_rank h then h_local_ptr h else nth (Z.to_nat rank) (h_rank_ptrs h) 0.

(** Modelled from the spec: [wholememory_get_rank_memory]
    (wholememory.h lines 278-282): "fails with NotSupported for distributed
    type when rank is not the caller's own" (4.3); a rank outside
    [0, world_size) is an invalid argument, returned as InvalidValue (7). *)
Definition wholememory_get_rank_memory (rank : Z) (h : wholememory_handle)
  : wholememory_error_code_t * option (Z * Z * Z) :=
  match h_memory_type h with
  | WHOLEMEMORY_MT_DISTRIBUTED =>
      if negb (rank =? h_rank h) then (WHOLEMEMORY_NOT_SUPPORTED, None)
      else (WHOLEMEMORY_SUCCESS, Some (h_local_ptr h, h_rank_size h rank, h_rank_offset h rank))
  | _ =>
      if (rank <? 0) || (h_world_size h <=? rank) then (WHOLEMEMORY_INVALID_VALUE, None)
      else (WHOLEMEMORY_SUCCESS, Some (h_rank_ptr h rank, h_rank_size h rank, h_rank_offset h rank))
  end.

End Handle.

(* ------------------------------------------------------------------------- *)
(** * BulkFileTransfer: [wholememory_load_from_file]

    The bytes of the allocation are a function from logical offsets to byte
    values (the union of the ranks' shards); files are lists of bytes. *)

Module Load.
Import Plan Handle.

Definition memory := Z -> Z.

(** Byte [k] of the logical concatenation of the files. *)
Definition file_byte (data : list Z) (k : Z) : Z := nth (Z.to_nat k) data 0.

(** Memory offset of entry [i]. *)
Definition entry_start (memory_offset memory_entry_size i : Z) : Z :=
  memory_offset + i * memory_entry_size.

(** Copy entry [i]: the [file_entry_size] bytes of the file record [i] go to
    the first [file_entry_size] bytes of memory entry [i]. *)
Definition load_entry (memory_offset memory_entry_size file_entry_size : Z)
  (data : list Z) (mem : memory) (i : Z) : memory :=
  fun a =>
    let start := entry_start memory_offset memory_entry_size i in
    if (start <=? a) && (a <? start + file_entry_size)
    then file_byte data (i * file_entry_size + (a - start))
    else mem a.

Definition load_entries (memory_offset memory_entry_size file_entry_size : Z)
  (data : list Z) (mem : memory) (entries : list Z) : memory :=
  fold_left (load_entry memory_offset memory_entry_size file_entry_size data) entries mem.

(** The entries whose memory slot starts in [rank]'s partition: the share of
    the concatenated files [rank] reads (spec 4.5). *)
Definition rank_entries (h : wholememory_handle) (memory_offset memory_entry_size : Z)
  (entry_count : Z) (rank : Z) : list Z :=
  filter (fun i =>
            let start := entry_start memory_offset memory_entry_size i in
            (h_rank_offset h rank <=? start) && (start <? h_rank_offset h rank + h_rank_size h rank))
         (map Z.of_nat (List.seq 0 (Z.to_nat entry_count))).

(** Modelled from the spec: the body of [wholememory_load_from_file]
    (wholememory.h lines 354-359).  Spec 4.5: InvalidInput if
    [file_entry_size > memory_entry_size]; files are logically concatenated;
    each rank reads the records that map to its own partition; each record
    fills the first [file_entry_size] bytes of its memory entry and the rest
    of the entry is left untouched.  The collective call is the loads of
    all ranks, in rank order. *)
Definition wholememory_load_from_file (h : wholememory_handle)
  (memory_offset memory_entry_size file_entry_size : Z) (files : list (list Z))
  (mem : memory) : wholememory_error_code_t * memory :=
  if memory_entry_size <? file_entry_size then (WHOLEMEMORY_INVALID_INPUT, mem)
  else
    let data := List.concat files in
    let entry_count := Z.of_nat (List.length data) / file_entry_size in
    (WHOLEMEMORY_SUCCESS,
     fold_left (fun m rank =>
                  load_entries memory_offset memory_entry_size file_entry_size data m
                    (rank_entries h memory_offset memory_entry_size entry_count rank))
               (ranks (h_world_size h)) mem).

End Load.

(* ========================================================================= *)
(** * Properties *)

(* ------------------------------------------------------------------------- *)
(** ** Error codes *)

(** C9 as stated does not hold: not every public operation returns an error
    code.  [wholememory_get_total_size] (line 246) is declared to return a
    [size_t], and it has no error-code out-parameter. *)
Lemma public_operations_not_all_error_codes :
  ~ (forall name rt, In (name, rt) public_api -> rt = RT_error_code).
Proof.
  intros H.
  assert (Hin : In ("wholememory_get_total_size"%string, RT_size_t) public_api)
    by (unfold public_api; simpl; tauto).
  discriminate (H _ _ Hin).
Qed.

(** C9 (amended): [wholememory_error_code_t] has exactly ten enumerators,
    with the distinct values 0..9 in declaration order
    ([WHOLEMEMORY_SUCCESS = 0]); every public function wholememory.h declares
    returns one, except nine accessors that return a plain value: two [bool]
    queries, the two distributed-backend getters, the memory type and
    location getters, the two [size_t] getters and [fork_get_device_count]
    ([int]). *)
Theorem error_codes_exactly_ten :
  List.length all_error_codes = 10%nat
  /\ NoDup all_error_codes
  /\ map error_code_to_int all_error_codes = [0; 1; 2; 3; 4; 5; 6; 7; 8; 9]
  /\ error_code_to_int WHOLEMEMORY_SUCCESS = 0
  /\ non_error_code_functions =
     [("wholememory_communicator_is_bind_to_nvshmem", RT_bool);
      ("wholememory_communicator_get_distributed_backend", RT_distributed_backend);
      ("wholememory_get_memory_type", RT_memory_type);
      ("wholememory_get_memory_location", RT_memory_location);
      ("wholememory_get_distributed_backend", RT_distributed_backend);
      ("wholememory_get_total_size", RT_size_t);
      ("wholememory_get_data_granularity", RT_size_t);
      ("fork_get_device_count", RT_int);
      ("wholememory_is_build_with_nvshmem", RT_bool)]%string.
Proof.
  split; [reflexivity|].
  split.
  - unfold all_error_codes.
    repeat constructor; simpl; intuition discriminate.
  - split; [reflexivity|]. split; [reflexivity|]. vm_compute. reflexivity.
Qed.

(* ------------------------------------------------------------------------- *)
(** ** WHOLEMEMORY_RETURN_ON_FAIL *)

Module ReturnOnFailProps.
Import ReturnOnFail.

Lemma body_of_calls_first_failure (S : Type) (calls : list (expr S)) (st : cstate S) :
  result_code (body_of_calls calls st) = Some (first_failure calls st).
Proof.
  revert st; induction calls as [|X rest IH]; intros st; [reflexivity|].
  simpl. unfold seq, WHOLEMEMORY_RETURN_ON_FAIL.
  destruct (X st) as [[] st1]; simpl; try reflexivity.
  apply IH.
Qed.

(** C10: [WHOLEMEMORY_RETURN_ON_FAIL(X); rest] runs [X] once on the current
    state; on [WHOLEMEMORY_SUCCESS] control falls through to [rest] on the
    state [X] left, otherwise the enclosing function returns the code of [X]
    unchanged after one line on stderr.  A body made of such calls followed
    by [return WHOLEMEMORY_SUCCESS] returns the first failing code. *)
Theorem return_on_fail_propagates :
  forall (S : Type) (file line text_of_X : string) (X : expr S) (rest : stmt S) (st : cstate S),
    seq (WHOLEMEMORY_RETURN_ON_FAIL file line text_of_X X) rest st
    = (let (err, st1) := X st in
       match err with
       | WHOLEMEMORY_SUCCESS => rest st1
       | _ => Returned err (mk_cstate (prog st1)
                              (stderr st1 ++ [fail_message file line text_of_X]))
       end)
    /\ (forall (calls : list (expr S)) (st0 : cstate S),
          result_code (body_of_calls calls st0) = Some (first_failure calls st0)).
Proof.
  intros S file line text_of_X X rest st; split.
  - unfold seq, WHOLEMEMORY_RETURN_ON_FAIL.
    destruct (X st) as [[] st1]; reflexivity.
  - apply body_of_calls_first_failure.
Qed.

(** A call that counts its evaluations is run exactly once by the macro. *)
Example return_on_fail_counts_once :
  let X : expr nat := fun st => (WHOLEMEMORY_CUDA_ERROR, mk_cstate (S (prog st)) (stderr st)) in
  seq (WHOLEMEMORY_RETURN_ON_FAIL "a.cpp" "7" "f()" X) return_success (mk_cstate 0%nat [])
  = Returned WHOLEMEMORY_CUDA_ERROR (mk_cstate 1%nat ["File a.cpp line 7 f() failed."%string]).
Proof. reflexivity. Qed.

(** The first failure of [calls1 ++ calls2] is that of [calls1] when
    [calls1] fails. *)
Lemma first_failure_app_fail (S : Type) (calls1 calls2 : list (expr S)) (st : cstate S) :
  first_failure calls1 st <> WHOLEMEMORY_SUCCESS ->
  first_failure (calls1 ++ calls2) st = first_failure calls1 st.
Proof.
  revert st; induction calls1 as [|X rest IH]; intros st Hf; simpl in *; [congruence|].
  destruct (X st) as [e st1]. destruct e; try reflexivity. apply IH; exact Hf.
Qed.

(** A body of [RETURN_ON_FAIL] calls always returns: it returns the first
    failing code, and when every call succeeds it returns
    [WHOLEMEMORY_SUCCESS] on a state from which further calls continue
    exactly as after the whole list. *)
Lemma body_of_calls_returns (S : Type) (calls : list (expr S)) (st : cstate S) :
  exists st1, body_of_calls calls st = Returned (first_failure calls st) st1
  /\ (first_failure calls st = WHOLEMEMORY_SUCCESS ->
      forall rest, first_failure (calls ++ rest) st = first_failure rest st1).
Proof.
  revert st; induction calls as [|X calls IH]; intros st.
  - exists st. split; reflexivity.
  - simpl. unfold seq, WHOLEMEMORY_RETURN_ON_FAIL.
    destruct (X st) as [e st1].
    destruct e; simpl;
      try (eexists; split; [reflexivity | intros H; discriminate H]).
    apply IH.
Qed.

(** Once a prefix of [RETURN_ON_FAIL] calls has failed, the function returns:
    whatever follows is never evaluated, so it does not matter what it is. *)
Theorem return_on_fail_skips_rest :
  forall (S : Type) (pre rest1 rest2 : list (expr S)) (st : cstate S),
    first_failure pre st <> WHOLEMEMORY_SUCCESS ->
    body_of_calls (pre ++ rest1) st = body_of_calls (pre ++ rest2) st.
Proof.
  intros S pre; induction pre as [|X pre IH]; intros rest1 rest2 st Hf; simpl in *; [congruence|].
  unfold seq, WHOLEMEMORY_RETURN_ON_FAIL.
  destruct (X st) as [e st1]. destruct e; simpl; try reflexivity.
  apply IH; exact Hf.
Qed.

Lemma return_on_fail_skips_rest_witness :
  let fail : expr nat := fun st => (WHOLEMEMORY_OUT_OF_MEMORY, st) in
  let bump : expr nat := fun st => (WHOLEMEMORY_SUCCESS, mk_cstate (S (prog st)) (stderr st)) in
  first_failure [bump; fail] (mk_cstate 0%nat []) <> WHOLEMEMORY_SUCCESS
  /\ body_of_calls ([bump; fail] ++ [bump]) (mk_cstate 0%nat [])
     = body_of_calls ([bump; fail] ++ []) (mk_cstate 0%nat []).
Proof.
  intros fail bump. split; [simpl; discriminate|].
  apply return_on_fail_skips_rest. simpl. discriminate.
Defined.

(** When the calls write nothing to stderr themselves, a body of
    [RETURN_ON_FAIL] calls leaves stderr as it was when it returns
    [WHOLEMEMORY_SUCCESS], and adds exactly one diagnostic line when it
    returns a failure. *)
Theorem return_on_fail_stderr_lines :
  forall (S : Type) (calls : list (expr S)) (st : cstate S),
    Forall keeps_stderr calls ->
    exists st1,
      body_of_calls calls st = Returned (first_failure calls st) st1
      /\ stderr st1 = stderr st ++
           (match first_failure calls st with
            | WHOLEMEMORY_SUCCESS => []
            | _ => [fail_message "f.cpp" "0" "X"]
            end).
Proof.
  intros S calls; induction calls as [|X calls IH]; intros st Hk.
  - exists st. rewrite app_nil_r. split; reflexivity.
  - inversion Hk as [|? ? HX Hks]; subst.
    simpl. unfold seq, WHOLEMEMORY_RETURN_ON_FAIL.
    pose proof (HX st) as Hs.
    destruct (X st) as [e st1]. simpl in Hs.
    destruct e; simpl;
      try (eexists; split; [reflexivity | simpl; rewrite Hs; reflexivity]).
    destruct (IH st1 Hks) as (st2 & Hb & He).
    exists st2. split; [exact Hb|]. rewrite He, Hs. reflexivity.
Qed.

Lemma return_on_fail_stderr_lines_witness :
  let fail : expr nat := fun st => (WHOLEMEMORY_CUDA_ERROR, st) in
  let ok : expr nat := fun st => (WHOLEMEMORY_SUCCESS, mk_cstate (S (prog st)) (stderr st)) in
  exists st1, body_of_calls [ok; fail; ok] (mk_cstate 0%nat ["x"%string]) = Returned WHOLEMEMORY_CUDA_ERROR st1
  /\ stderr st1 = ["x"%string; fail_message "f.cpp" "0" "X"].
Proof.
  intros fail ok.
  assert (Hk : Forall keeps_stderr [ok; fail; ok])
    by (repeat constructor; intros st; reflexivity).
  exact (return_on_fail_stderr_lines nat [ok; fail; ok] (mk_cstate 0%nat ["x"%string]) Hk).
Defined.

(** Nesting: calling, through [RETURN_ON_FAIL], a function whose body is
    itself a sequence of [RETURN_ON_FAIL] calls returns the same code as
    running the inner calls and then the outer ones in one flat sequence. *)
Theorem return_on_fail_nested_call :
  forall (S : Type) (inner outer : list (expr S)) (st : cstate S),
    result_code (body_of_calls (call_of (body_of_calls inner) :: outer) st)
    = Some (first_failure (inner ++ outer) st).
Proof.
  intros S inner outer st.
  destruct (body_of_calls_returns S inner st) as (st1 & Hb & Hsucc).
  simpl. unfold seq, WHOLEMEMORY_RETURN_ON_FAIL, call_of. rewrite Hb.
  destruct (first_failure inner st) eqn:Hf; simpl;
    try (rewrite first_failure_app_fail by (rewrite Hf; discriminate); rewrite Hf; reflexivity).
  rewrite body_of_calls_first_failure, (Hsucc eq_refl). reflexivity.
Qed.

End ReturnOnFailProps.

(* ------------------------------------------------------------------------- *)
(** ** Partition planner: concrete plans and errors *)

Module PlanProps.
Import Plan Handle.

(** C3: 1024 bytes of granularity 256 on 4 ranks give [size_per_rank = 256]
    (256 bytes on every rank); 10 entries on 3 ranks give 4 entries to rank 0
    and 3 to ranks 1 and 2, 10 in all. *)
Theorem concrete_partition_plans :
  wholememory_determine_partition_plan 1024 256 4 = (WHOLEMEMORY_SUCCESS, Some 256)
  /\ map (rank_partition_size 1024 256 4) [0; 1; 2; 3] = [256; 256; 256; 256]
  /\ wholememory_determine_entry_partition_plan 10 3 = (WHOLEMEMORY_SUCCESS, Some 4)
  /\ map (rank_entry_count 10 3) [0; 1; 2] = [4; 3; 3]
  /\ sum_ranks (rank_entry_count 10 3) 3 = 10.
Proof. repeat split; reflexivity. Qed.

(** C5: the planner fails, with InvalidValue, exactly when the granularity is
    0, [world_size <= 0] or [total_size] is not a multiple of the granularity;
    allocating 100 bytes with granularity 7 fails with InvalidValue whatever
    the communicator, type, location and allocator. *)
Theorem partition_plan_invalid_value :
  (forall total_size data_granularity world_size,
      (fst (wholememory_determine_partition_plan total_size data_granularity world_size)
       = WHOLEMEMORY_INVALID_VALUE
       <-> data_granularity = 0 \/ world_size <= 0 \/ total_size mod data_granularity <> 0)
      /\ (fst (wholememory_determine_partition_plan total_size data_granularity world_size)
          = WHOLEMEMORY_SUCCESS
          <-> ~ (data_granularity = 0 \/ world_size <= 0 \/ total_size mod data_granularity <> 0)))
  /\ (forall comm mt ml alloc gathered,
        wholememory_malloc 100 comm mt ml 7 alloc gathered = (WHOLEMEMORY_INVALID_VALUE, None)).
Proof.
  split.
  - intros t g ws.
    unfold wholememory_determine_partition_plan, wholememory_determine_entry_partition_plan.
    destruct (Z.eqb_spec g 0) as [Hg|Hg]; simpl.
    + split; split; intros H; try discriminate; try tauto.
    + destruct (Z.leb_spec ws 0) as [Hw|Hw]; simpl.
      * split; split; intros H; try discriminate; try tauto.
      * destruct (Z.eqb_spec (t mod g) 0) as [Hm|Hm]; simpl.
        -- replace (ws <=? 0) with false by (symmetry; apply Z.leb_gt; lia).
           simpl. split; split; intros H; try discriminate; try reflexivity.
           ++ exfalso; destruct H as [H|[H|H]]; lia.
           ++ intros [H'|[H'|H']]; lia.
        -- split; split; intros H; try discriminate; try tauto.
  - intros comm mt ml alloc gathered. unfold wholememory_malloc.
    unfold wholememory_determine_partition_plan. simpl.
    rewrite Bool.orb_true_r. reflexivity.
Qed.

End PlanProps.

(* ------------------------------------------------------------------------- *)
(** ** Partition planner: per-rank layout *)

Module PlanLayout.
Import Plan.

Lemma rank_entry_count_cases (G ws r : Z) :
  rank_entry_count G ws r = G / ws + (if r <? G mod ws then 1 else 0).
Proof. unfold rank_entry_count; destruct (r <? G mod ws); lia. Qed.

Lemma sum_rank_units (G ws g : Z) (n : nat) :
  0 < ws ->
  sum_ranks (fun r => rank_entry_count G ws r * g) n
  = (Z.of_nat n * (G / ws) + Z.min (Z.of_nat n) (G mod ws)) * g.
Proof.
  intros Hws. assert (Hrem : 0 <= G mod ws < ws) by (apply Z.mod_pos_bound; lia).
  induction n as [|n IH]; simpl sum_ranks.
  - simpl Z.of_nat. rewrite Z.min_l by lia. ring.
  - rewrite IH, rank_entry_count_cases, Nat2Z.inj_succ.
    destruct (Z.ltb_spec (Z.of_nat n) (G mod ws)).
    + rewrite (Z.min_l (Z.of_nat n)) by lia.
      rewrite (Z.min_l (Z.succ (Z.of_nat n))) by lia. unfold Z.succ. ring.
    + rewrite (Z.min_r (Z.of_nat n)) by lia.
      rewrite (Z.min_r (Z.succ (Z.of_nat n))) by lia. unfold Z.succ. ring.
Qed.

Lemma partition_plan_success (t g ws : Z) :
  0 < g -> 1 <= ws -> t mod g = 0 ->
  wholememory_determine_partition_plan t g ws
  = (WHOLEMEMORY_SUCCESS,
     Some ((if (t / g) mod ws =? 0 then (t / g) / ws else (t / g) / ws + 1) * g)).
Proof.
  intros Hg Hws Hm. unfold wholememory_determine_partition_plan,
    wholememory_determine_entry_partition_plan.
  replace (g =? 0) with false by (symmetry; apply Z.eqb_neq; lia).
  replace (ws <=? 0) with false by (symmetry; apply Z.leb_gt; lia).
  rewrite Hm. reflexivity.
Qed.

(** C1 as stated does not hold: when [G] is a multiple of [world_size]
    ([rem = 0]) every rank holds [base] units, so the maximum per-rank size
    is [base * granularity], not [(base+1) * granularity].  At
    [total = 1024], [granularity = 256], [world_size = 4] the plan returns
    256 while [(base+1) * granularity = 512]. *)
Lemma partition_plan_max_counterexample :
  ~ (forall total_size data_granularity world_size,
       plan_accepts total_size data_granularity world_size ->
       let G := total_size / data_granularity in
       let base := G / world_size in
       let rem := G mod world_size in
       (forall r, 0 <= r < rem -> rank_entry_count G world_size r = base + 1)
       /\ (forall r, rem <= r < world_size -> rank_entry_count G world_size r = base)
       /\ (forall spr,
             wholememory_determine_partition_plan total_size data_granularity world_size
             = (WHOLEMEMORY_SUCCESS, Some spr) ->
             spr = (base + 1) * data_granularity
             /\ (forall r, 0 <= r < world_size ->
                   rank_partition_size total_size data_granularity world_size r <= spr)
             /\ (exists r, 0 <= r < world_size
                   /\ rank_partition_size total_size data_granularity world_size r = spr))).
Proof.
  intros H.
  assert (Ha : plan_accepts 1024 256 4) by (unfold plan_accepts; vm_compute; intuition discriminate).
  destruct (H 1024 256 4 Ha) as (_ & _ & Hspr).
  destruct (Hspr 256 eq_refl) as (Heq & _).
  vm_compute in Heq. discriminate.
Qed.

(** C1 (amended): with [G = total / granularity], [base = G / world_size]
    and [rem = G mod world_size], ranks [0..rem-1] hold [base+1] units and
    ranks [rem..world_size-1] hold [base] units; the [size_per_rank] the
    planner returns is the maximum per-rank size, rank 0's: [(base+1) *
    granularity] when [rem <> 0] and [base * granularity] when [rem = 0]. *)
Theorem partition_plan_layout :
  forall total_size data_granularity world_size,
    plan_accepts total_size data_granularity world_size ->
    let G := total_size / data_granularity in
    let base := G / world_size in
    let rem := G mod world_size in
    let spr := (if rem =? 0 then base else base + 1) * data_granularity in
    (forall r, 0 <= r < rem -> rank_entry_count G world_size r = base + 1)
    /\ (forall r, rem <= r < world_size -> rank_entry_count G world_size r = base)
    /\ wholememory_determine_partition_plan total_size data_granularity world_size
       = (WHOLEMEMORY_SUCCESS, Some spr)
    /\ (forall r, 0 <= r < world_size ->
          rank_partition_size total_size data_granularity world_size r <= spr)
    /\ rank_partition_size total_size data_granularity world_size 0 = spr.
Proof.
  intros t g ws (Ht & Hg & Hws & Hm) G base rem spr.
  assert (Hrem : 0 <= rem < ws) by (apply Z.mod_pos_bound; lia).
  split; [|split; [|split; [|split]]].
  - intros r Hr. unfold rank_entry_count. fold base rem.
    replace (r <? rem) with true by (symmetry; apply Z.ltb_lt; lia). reflexivity.
  - intros r Hr. unfold rank_entry_count. fold base rem.
    replace (r <? rem) with false by (symmetry; apply Z.ltb_ge; lia). reflexivity.
  - apply partition_plan_success; lia.
  - intros r Hr. unfold rank_partition_size, rank_entry_count, spr. fold G base rem.
    apply Z.mul_le_mono_nonneg_r; [lia|].
    destruct (Z.ltb_spec r rem); destruct (Z.eqb_spec rem 0); lia.
  - unfold rank_partition_size, rank_entry_count, spr. fold G base rem.
    destruct (Z.ltb_spec 0 rem); destruct (Z.eqb_spec rem 0); try lia; reflexivity.
Qed.

(** Witness of [partition_plan_layout] at 1000 bytes of granularity 100 on
    3 ranks: 4, 3 and 3 units, [size_per_rank = 400]. *)
Lemma partition_plan_layout_witness :
  plan_accepts 1000 100 3
  /\ wholememory_determine_partition_plan 1000 100 3 = (WHOLEMEMORY_SUCCESS, Some 400).
Proof.
  assert (Ha : plan_accepts 1000 100 3) by (unfold plan_accepts; vm_compute; intuition discriminate).
  split; [exact Ha|].
  exact (proj1 (proj2 (proj2 (partition_plan_layout 1000 100 3 Ha)))).
Defined.

(** C2: the per-rank sizes, each computed on its own, add up to [total_size],
    and each is a multiple of the granularity. *)
Theorem partition_sizes_cover_total :
  forall total_size data_granularity world_size,
    plan_accepts total_size data_granularity world_size ->
    plan_total total_size data_granularity world_size = total_size
    /\ (forall r, 0 <= r < world_size ->
          (rank_partition_size total_size data_granularity world_size r)
            mod data_granularity = 0).
Proof.
  intros t g ws (Ht & Hg & Hws & Hm). split.
  - unfold plan_total, rank_partition_size.
    rewrite sum_rank_units, Z2Nat.id by lia.
    assert (Hrem : 0 <= (t / g) mod ws < ws) by (apply Z.mod_pos_bound; lia).
    rewrite Z.min_r by lia.
    rewrite <- (Z_div_mod_eq_full (t / g) ws).
    rewrite Z.mul_comm, <- (Z.add_0_r (g * (t / g))), <- Hm.
    symmetry; apply Z_div_mod_eq_full.
  - intros r Hr. unfold rank_partition_size. apply Z_mod_mult.
Qed.

Lemma partition_sizes_cover_total_witness :
  plan_accepts 1000 100 3 /\ plan_total 1000 100 3 = 1000.
Proof.
  assert (Ha : plan_accepts 1000 100 3) by (unfold plan_accepts; vm_compute; intuition discriminate).
  split; [exact Ha|].
  exact (proj1 (partition_sizes_cover_total 1000 100 3 Ha)).
Defined.

End PlanLayout.

(* ------------------------------------------------------------------------- *)
(** ** Handles *)

Module HandleProps.
Import Plan Handle PlanLayout.

Lemma partition_plan_success_inv (t g ws spr : Z) :
  wholememory_determine_partition_plan t g ws = (WHOLEMEMORY_SUCCESS, Some spr) ->
  g <> 0 /\ 0 < ws /\ t mod g = 0.
Proof.
  unfold wholememory_determine_partition_plan, wholememory_determine_entry_partition_plan.
  destruct (Z.eqb_spec g 0); simpl; [discriminate|].
  destruct (Z.leb_spec ws 0); simpl; [discriminate|].
  destruct (Z.eqb_spec (t mod g) 0); simpl; [|discriminate].
  replace (ws <=? 0) with false by (symmetry; apply Z.leb_gt; lia).
  intros _; lia.
Qed.

Lemma malloc_success_inv t comm mt ml g alloc gathered h :
  wholememory_malloc t comm mt ml g alloc gathered = (WHOLEMEMORY_SUCCESS, Some h) ->
  h_comm h = comm /\ h_total_size h = t /\ h_data_granularity h = g
  /\ h_memory_type h = mt /\ h_memory_location h = ml
  /\ wholememory_determine_partition_plan t g (comm_world_size comm)
     = (WHOLEMEMORY_SUCCESS, Some (h_size_per_rank h)).
Proof.
  unfold wholememory_malloc.
  destruct (wholememory_determine_partition_plan t g (comm_world_size comm)) as [e o] eqn:E.
  destruct e; try discriminate. destruct o as [spr|]; [|discriminate].
  destruct (negb (comm_support comm mt ml)); [discriminate|].
  destruct mt;
    match goal with |- context [alloc ?n] => destruct (alloc n) end;
    try discriminate; intros Hh; injection Hh as <-; simpl; repeat split; assumption.
Qed.

(** The layout facts of a live handle. *)
Lemma live_plan h :
  live h ->
  0 < h_data_granularity h /\ 1 <= h_world_size h
  /\ h_total_size h mod h_data_granularity h = 0
  /\ h_size_per_rank h = h_rank_size h 0.
Proof.
  intros (t & comm & mt & ml & g & alloc & gathered & Ht & Hg & Hm).
  destruct (malloc_success_inv _ _ _ _ _ _ _ _ Hm) as (Hc & Htot & Hgr & _ & _ & Hp).
  destruct (partition_plan_success_inv _ _ _ _ Hp) as (Hg0 & Hws & Hmod).
  unfold h_rank_size, h_world_size. rewrite Hc, Htot, Hgr.
  split; [lia|]. split; [lia|]. split; [assumption|].
  assert (Ha : plan_accepts t g (comm_world_size comm)) by (unfold plan_accepts; lia).
  destruct (partition_plan_layout t g (comm_world_size comm) Ha) as (_ & _ & Hp' & _ & H0).
  rewrite Hp in Hp'. injection Hp' as ->. symmetry; exact H0.
Qed.

(** A handle of 4 bytes, granularity 1, on rank 0 of 3 ranks, continuous
    device memory at address 0. *)
Definition comm_0_of_3 : wholememory_comm := mk_comm 0 3 (fun _ _ => true).

Definition handle_4_on_3 : wholememory_handle :=
  mk_handle comm_0_of_3 4 WHOLEMEMORY_MT_CONTINUOUS WHOLEMEMORY_ML_DEVICE 1 2 0 [0; 2; 3] 0.

Lemma handle_4_on_3_live : live handle_4_on_3.
Proof.
  exists 4, comm_0_of_3, WHOLEMEMORY_MT_CONTINUOUS, WHOLEMEMORY_ML_DEVICE, 1,
    (fun _ => Some 0), [].
  split; [lia|]. split; [lia|]. reflexivity.
Qed.

(** C4 as stated does not hold: the planner gives the extra units to the
    lowest ranks, so with 4 units on 3 ranks the sizes are 2, 1, 1 and ranks 0
    and 1, neither of them the last, differ. *)
Lemma partition_sizes_not_equal_but_last :
  ~ (forall h, live h ->
       forall r1 r2, 0 <= r1 < h_world_size h - 1 -> 0 <= r2 < h_world_size h - 1 ->
       h_rank_size h r1 = h_rank_size h r2
       /\ h_rank_size h (h_world_size h - 1) <= h_rank_size h r1).
Proof.
  intros H.
  destruct (H handle_4_on_3 handle_4_on_3_live 0 1) as [Heq _];
    [vm_compute; intuition discriminate | vm_compute; intuition discriminate |].
  vm_compute in Heq. discriminate.
Qed.

(** C4 (amended): in the plan a live handle realizes, partition sizes do not
    increase with the rank and two ranks differ by at most one granularity
    unit; the ranks below [rem] share one size, [(base+1) * granularity], and
    the ranks from [rem] on share another, [base * granularity]; the last
    rank holds the smallest partition; and
    [wholememory_get_partition_plan] reports the largest, rank 0's. *)
Theorem realized_partition_shape :
  forall h, live h ->
    let g := h_data_granularity h in
    let ws := h_world_size h in
    let base := (h_total_size h / g) / ws in
    let rem := (h_total_size h / g) mod ws in
    (forall r1 r2, 0 <= r1 <= r2 -> r2 < ws ->
       h_rank_size h r2 <= h_rank_size h r1 <= h_rank_size h r2 + g)
    /\ (forall r1 r2, 0 <= r1 < rem -> 0 <= r2 < rem -> h_rank_size h r1 = h_rank_size h r2)
    /\ (forall r1 r2, rem <= r1 < ws -> rem <= r2 < ws -> h_rank_size h r1 = h_rank_size h r2)
    /\ (forall r, 0 <= r < rem -> h_rank_size h r = (base + 1) * g)
    /\ (forall r, rem <= r < ws -> h_rank_size h r = base * g)
    /\ (forall r, 0 <= r < ws -> h_rank_size h (ws - 1) <= h_rank_size h r)
    /\ wholememory_get_partition_plan h = (WHOLEMEMORY_SUCCESS, Some (h_rank_size h 0)).
Proof.
  intros h Hl g ws base rem.
  destruct (live_plan h Hl) as (Hg & Hws & _ & Hspr).
  fold g ws in Hg, Hws.
  assert (Hsz : forall r, h_rank_size h r
                = (h_total_size h / g / ws + (if r <? rem then 1 else 0)) * g).
  { intros r. unfold h_rank_size, rank_partition_size. rewrite rank_entry_count_cases. reflexivity. }
  split; [|split; [|split; [|split; [|split; [|split]]]]].
  - intros r1 r2 Hr Hr2. rewrite !Hsz.
    destruct (Z.ltb_spec r1 rem); destruct (Z.ltb_spec r2 rem); try lia; nia.
  - intros r1 r2 H1 H2. rewrite !Hsz.
    replace (r1 <? rem) with true by (symmetry; apply Z.ltb_lt; lia).
    replace (r2 <? rem) with true by (symmetry; apply Z.ltb_lt; lia). reflexivity.
  - intros r1 r2 H1 H2. rewrite !Hsz.
    replace (r1 <? rem) with false by (symmetry; apply Z.ltb_ge; lia).
    replace (r2 <? rem) with false by (symmetry; apply Z.ltb_ge; lia). reflexivity.
  - intros r Hr. rewrite Hsz.
    replace (r <? rem) with true by (symmetry; apply Z.ltb_lt; lia). reflexivity.
  - intros r Hr. rewrite Hsz.
    replace (r <? rem) with false by (symmetry; apply Z.ltb_ge; lia). unfold base. ring.
  - intros r Hr. rewrite !Hsz. assert (0 <= rem < ws) by (apply Z.mod_pos_bound; lia).
    destruct (Z.ltb_spec (ws - 1) rem); destruct (Z.ltb_spec r rem); try lia; nia.
  - unfold wholememory_get_partition_plan. rewrite Hspr. reflexivity.
Qed.

Lemma realized_partition_shape_witness :
  live handle_4_on_3
  /\ wholememory_get_partition_plan handle_4_on_3
     = (WHOLEMEMORY_SUCCESS, Some (h_rank_size handle_4_on_3 0)).
Proof.
  split; [exact handle_4_on_3_live|].
  exact (proj2 (proj2 (proj2 (proj2 (proj2 (proj2
           (realized_partition_shape handle_4_on_3 handle_4_on_3_live))))))).
Defined.

End HandleProps.

(* ------------------------------------------------------------------------- *)
(** ** Handle queries *)

Module QueryProps.
Import Plan Handle.

(** C6: [wholememory_get_global_pointer] succeeds exactly for continuous
    memory and for chunked host memory, and fails with NotSupported
    otherwise; [wholememory_get_global_reference] succeeds exactly for
    continuous and chunked memory, and fails with NotSupported for
    distributed memory. *)
Theorem global_pointer_and_reference_support :
  forall h : wholememory_handle,
    (fst (wholememory_get_global_pointer h) = WHOLEMEMORY_SUCCESS
     <-> h_memory_type h = WHOLEMEMORY_MT_CONTINUOUS
         \/ (h_memory_type h = WHOLEMEMORY_MT_CHUNKED /\ h_memory_location h = WHOLEMEMORY_ML_HOST))
    /\ (fst (wholememory_get_global_pointer h) = WHOLEMEMORY_SUCCESS
        \/ wholememory_get_global_pointer h = (WHOLEMEMORY_NOT_SUPPORTED, None))
    /\ (fst (wholememory_get_global_reference h) = WHOLEMEMORY_SUCCESS
        <-> h_memory_type h = WHOLEMEMORY_MT_CONTINUOUS
            \/ h_memory_type h = WHOLEMEMORY_MT_CHUNKED)
    /\ (h_memory_type h = WHOLEMEMORY_MT_DISTRIBUTED ->
        wholememory_get_global_reference h = (WHOLEMEMORY_NOT_SUPPORTED, None)).
Proof.
  intros h. unfold wholememory_get_global_pointer, wholememory_get_global_reference.
  destruct (h_memory_type h), (h_memory_location h); simpl;
    repeat split; intros; try tauto; try discriminate;
    repeat match goal with
           | H : _ \/ _ |- _ => destruct H
           | H : _ /\ _ |- _ => destruct H
           end; try discriminate; auto.
Qed.

(** A distributed handle on rank 1 of 2. *)
Definition distributed_handle : wholememory_handle :=
  mk_handle (mk_comm 1 2 (fun _ _ => true)) 8 WHOLEMEMORY_MT_DISTRIBUTED
    WHOLEMEMORY_ML_DEVICE 4 4 100 [] 0.

(** C7: for distributed memory a rank other than the caller's own is refused
    with NotSupported; for continuous and chunked memory, and for the
    caller's own rank on any type, a rank of the communicator gets its base
    pointer, partition size and partition offset. *)
Theorem rank_memory_access :
  forall (h : wholememory_handle) (rank : Z),
    (h_memory_type h = WHOLEMEMORY_MT_DISTRIBUTED -> rank <> h_rank h ->
     wholememory_get_rank_memory rank h = (WHOLEMEMORY_NOT_SUPPORTED, None))
    /\ ((h_memory_type h = WHOLEMEMORY_MT_CONTINUOUS \/ h_memory_type h = WHOLEMEMORY_MT_CHUNKED) ->
        0 <= rank < h_world_size h ->
        wholememory_get_rank_memory rank h
        = (WHOLEMEMORY_SUCCESS, Some (h_rank_ptr h rank, h_rank_size h rank, h_rank_offset h rank)))
    /\ (rank = h_rank h -> 0 <= rank < h_world_size h ->
        wholememory_get_rank_memory rank h
        = (WHOLEMEMORY_SUCCESS, Some (h_local_ptr h, h_rank_size h rank, h_rank_offset h rank))).
Proof.
  intros h rank. unfold wholememory_get_rank_memory, h_rank_ptr.
  split; [|split].
  - intros Ht Hr. rewrite Ht. destruct (Z.eqb_spec rank (h_rank h)); [contradiction|reflexivity].
  - intros Ht Hr.
    replace ((rank <? 0) || (h_world_size h <=? rank)) with false
      by (symmetry; apply Bool.orb_false_iff; split; [apply Z.ltb_ge|apply Z.leb_gt]; lia).
    destruct Ht as [-> | ->]; reflexivity.
  - intros -> Hr. rewrite Z.eqb_refl.
    replace ((h_rank h <? 0) || (h_world_size h <=? h_rank h)) with false
      by (symmetry; apply Bool.orb_false_iff; split; [apply Z.ltb_ge|apply Z.leb_gt]; lia).
    destruct (h_memory_type h); reflexivity.
Qed.

Lemma rank_memory_access_witness :
  wholememory_get_rank_memory 0 distributed_handle = (WHOLEMEMORY_NOT_SUPPORTED, None)
  /\ wholememory_get_rank_memory 0 HandleProps.handle_4_on_3 = (WHOLEMEMORY_SUCCESS, Some (0, 2, 0))
  /\ wholememory_get_rank_memory 1 distributed_handle = (WHOLEMEMORY_SUCCESS, Some (100, 4, 4)).
Proof.
  split; [|split].
  - apply (proj1 (rank_memory_access distributed_handle 0)); [reflexivity | vm_compute; discriminate].
  - apply (proj1 (proj2 (rank_memory_access HandleProps.handle_4_on_3 0)));
      [left; reflexivity | vm_compute; intuition discriminate].
  - apply (proj2 (proj2 (rank_memory_access distributed_handle 1)));
      [reflexivity | vm_compute; intuition discriminate].
Defined.

End QueryProps.

(* ------------------------------------------------------------------------- *)
(** ** Loading from files *)

Module LoadProps.
Import Plan Handle Load.

(** A byte outside the copied prefix of every listed entry keeps its value. *)
Lemma load_entries_outside off mes fes data (entries : list Z) (mem : memory) (a : Z) :
  (forall i, In i entries ->
     ~ (entry_start off mes i <= a < entry_start off mes i + fes)) ->
  load_entries off mes fes data mem entries a = mem a.
Proof.
  unfold load_entries. revert mem.
  induction entries as [|i rest IH]; intros mem Hout; simpl; [reflexivity|].
  rewrite IH by (intros j Hj; apply Hout; right; exact Hj).
  unfold load_entry.
  destruct (Z.leb_spec (entry_start off mes i) a);
    destruct (Z.ltb_spec a (entry_start off mes i + fes)); simpl; try reflexivity.
  exfalso; apply (Hout i); [left; reflexivity | lia].
Qed.

Lemma rank_entries_nonneg h off mes n rank i :
  In i (rank_entries h off mes n rank) -> 0 <= i.
Proof.
  unfold rank_entries. rewrite filter_In, in_map_iff.
  intros ((k & <- & _) & _). lia.
Qed.

(** The collective load leaves alone every byte outside the copied prefix of
    every entry. *)
Lemma load_ranks_outside h off mes fes data n (rs : list Z) (mem : memory) (a : Z) :
  (forall i, 0 <= i -> ~ (entry_start off mes i <= a < entry_start off mes i + fes)) ->
  fold_left (fun m rank => load_entries off mes fes data m (rank_entries h off mes n rank))
    rs mem a = mem a.
Proof.
  intros Hout. revert mem.
  induction rs as [|r rest IH]; intros mem; simpl; [reflexivity|].
  rewrite IH. apply load_entries_outside.
  intros i Hi. apply Hout. eapply rank_entries_nonneg; exact Hi.
Qed.

(** With [file_entry_size <= memory_entry_size], a byte past the copied
    prefix of entry [i] lies in the copied prefix of no entry. *)
Lemma tail_outside_prefixes off mes fes i a :
  fes <= mes -> 0 <= i ->
  entry_start off mes i + fes <= a < entry_start off mes i + mes ->
  forall j, 0 <= j -> ~ (entry_start off mes j <= a < entry_start off mes j + fes).
Proof.
  unfold entry_start. intros Hle Hi Ha j Hj [Hlo Hhi].
  destruct (Z.lt_total j i) as [Hji | [-> | Hij]].
  - assert (j * mes + mes <= i * mes) by nia. lia.
  - lia.
  - assert (i * mes + mes <= j * mes) by nia. lia.
Qed.

(** C8: loading fails with InvalidInput when [file_entry_size >
    memory_entry_size]; when it succeeds, the bytes of each memory entry past
    its first [file_entry_size] bytes keep their previous values. *)
Theorem load_from_file_entry_tail_untouched :
  forall (h : wholememory_handle) (memory_offset memory_entry_size file_entry_size : Z)
         (files : list (list Z)) (mem : memory),
    (memory_entry_size < file_entry_size ->
     wholememory_load_from_file h memory_offset memory_entry_size file_entry_size files mem
     = (WHOLEMEMORY_INVALID_INPUT, mem))
    /\ (forall mem',
          wholememory_load_from_file h memory_offset memory_entry_size file_entry_size files mem
          = (WHOLEMEMORY_SUCCESS, mem') ->
          forall i a, 0 <= i ->
          entry_start memory_offset memory_entry_size i + file_entry_size <= a
          < entry_start memory_offset memory_entry_size i + memory_entry_size ->
          mem' a = mem a).
Proof.
  intros h off mes fes files mem. unfold wholememory_load_from_file. split.
  - intros Hlt. replace (mes <? fes) with true by (symmetry; apply Z.ltb_lt; exact Hlt).
    reflexivity.
  - intros mem'. destruct (Z.ltb_spec mes fes) as [Hlt|Hle]; [discriminate|].
    intros Hm. injection Hm as <-. intros i a Hi Ha.
    apply load_ranks_outside.
    apply (tail_outside_prefixes off mes fes i a Hle Hi Ha).
Qed.

(** Two files of 2-byte records loaded into 4-byte entries of the 4-rank
    handle of 1024 bytes: bytes 2 and 3 of each entry keep their value, and
    a 5-byte record does not fit a 4-byte entry. *)
Definition handle_1024_on_4 : wholememory_handle :=
  mk_handle (mk_comm 0 4 (fun _ _ => true)) 1024 WHOLEMEMORY_MT_CHUNKED
    WHOLEMEMORY_ML_DEVICE 4 256 0 [0; 256; 512; 768] 0.

Lemma load_from_file_entry_tail_untouched_witness :
  wholememory_load_from_file handle_1024_on_4 0 4 5 [[1; 2; 3; 4; 5]] (fun _ => 0)
  = (WHOLEMEMORY_INVALID_INPUT, fun _ => 0)
  /\ (snd (wholememory_load_from_file handle_1024_on_4 0 4 2 [[1; 2]; [3; 4]] (fun _ => 9))) 6 = 9
  /\ (snd (wholememory_load_from_file handle_1024_on_4 0 4 2 [[1; 2]; [3; 4]] (fun _ => 9))) 4 = 3.
Proof.
  split; [|split].
  - apply (proj1 (load_from_file_entry_tail_untouched handle_1024_on_4 0 4 5 [[1; 2; 3; 4; 5]]
                    (fun _ => 0))); lia.
  - apply (proj2 (load_from_file_entry_tail_untouched handle_1024_on_4 0 4 2 [[1; 2]; [3; 4]]
                    (fun _ => 9)) _ eq_refl 1 6); vm_compute; intuition discriminate.
  - vm_compute. reflexivity.
Defined.

End LoadProps.
